(** * Athletes and achievements service (4lab/main.py)

    A shallow embedding of the FastAPI/SQLAlchemy service of [4lab/main.py]:
    two tables keyed by an integer primary key, the pydantic request models
    with their field constraints, the two [..._or_404] helpers, the seven
    handlers, and the routing layer that turns a handler's outcome into an
    HTTP status code.

    Conventions of the embedding.
    - A table is a finite map from the primary key [id] to the other columns
      of the row, so that "one row per primary key" holds by construction.
    - A handler is a function from the database to an exception or a result,
      together with the database as committed so far.  Every write of the
      service is followed at once by its [db.commit()], so a write and its
      commit are one step and nothing is ever pending when [get_db] closes
      the session; what was committed before an exception stays committed.
    - An identifier sent by a client is a Python [int], unbounded (type
      [Z]).  The storage engine holds signed 64-bit integers: binding an
      identifier outside that range into a statement raises [OverflowError],
      which no handler catches.  Values read back from the tables bind
      without error.  The key the engine assigns to a new row is not bounded
      in the embedding.
    - A [string] stands for a Python [str], one element per character. *)

From stdpp Require Import gmap strings list fin_maps.
From Stdlib Require Import ZArith Lia.

Local Open Scope Z_scope.

(** ** [datetime.date] *)

Module datetime.

(** The three components of a date as they arrive in a request, before
    pydantic has decided whether they denote a day of the calendar. *)
Record date : Type := Date { year : Z; month : Z; day : Z }.

Definition is_leap (y : Z) : bool :=
  (y mod 4 =? 0) && (negb (y mod 100 =? 0) || (y mod 400 =? 0)).

Definition days_in_month (y m : Z) : Z :=
  if m =? 2 then (if is_leap y then 29 else 28)
  else if (m =? 4) || (m =? 6) || (m =? 9) || (m =? 11) then 30
  else 31.

(** What the constructor [date(year, month, day)] accepts:
    [MINYEAR <= year <= MAXYEAR], [1 <= month <= 12] and
    [1 <= day <= days_in_month]. *)
Definition is_calendar_date (d : date) : bool :=
  (1 <=? year d) && (year d <=? 9999) &&
  (1 <=? month d) && (month d <=? 12) &&
  (1 <=? day d) && (day d <=? days_in_month (year d) (month d)).

End datetime.

#[global] Instance date_eq_dec : EqDecision datetime.date.
Proof. solve_decision. Defined.

(** ** Pydantic models *)

(** [AthleteBase] (and [AthleteCreate], which adds nothing). *)
Record AthleteBase : Type := Athlete { name : string; country : string }.

(** [AchievementBase] (and [AchievementCreate], which adds nothing). *)
Record AchievementBase : Type := Achievement {
  sport : string;
  result : string;
  date : datetime.date;
  athlete_id : Z
}.

#[global] Instance AthleteBase_eq_dec : EqDecision AthleteBase.
Proof. solve_decision. Defined.

#[global] Instance AchievementBase_eq_dec : EqDecision AchievementBase.
Proof. solve_decision. Defined.

(** [AthleteResponse] and [AchievementResponse] extend their base model with
    [id : int]; a loaded ORM object ([DBAthlete], [DBAchievement]) carries the
    same data.  Both are a primary key next to the remaining columns. *)
Record Row (A : Type) : Type := MkRow { id : Z; columns : A }.
Arguments MkRow {A} _ _.
Arguments id {A} _.
Arguments columns {A} _.

#[global] Instance Row_eq_dec `{EqDecision A} : EqDecision (Row A).
Proof. solve_decision. Defined.

Abbreviation AthleteResponse := (Row AthleteBase).
Abbreviation AchievementResponse := (Row AchievementBase).

(** [Field(..., min_length=1, max_length=100)] on a [str]. *)
Definition Field_str (s : string) : bool :=
  (1 <=? String.length s)%nat && (String.length s <=? 100)%nat.

(** Validation of a request body against [AthleteCreate]. *)
Definition AthleteCreate_valid (b : AthleteBase) : bool :=
  Field_str (name b) && Field_str (country b).

(** Validation of a request body against [AchievementCreate]. *)
Definition AchievementCreate_valid (b : AchievementBase) : bool :=
  Field_str (sport b) && Field_str (result b) &&
  datetime.is_calendar_date (date b).

(** ** Database *)

(** The tables [athletes] and [achievements] of [athletes.db]. *)
Record Session : Type := DB {
  athletes : gmap Z AthleteBase;
  achievements : gmap Z AchievementBase
}.

(** [Base.metadata.create_all] on a fresh file: both tables empty. *)
Definition create_all : Session := DB ∅ ∅.

(** [query.all()]: every row of a table as an object with its key.  No
    query of the service has an [ORDER BY]; the order of the list is the
    map's, and no property below depends on it. *)
Definition all {A} (t : gmap Z A) : list (Row A) :=
  (λ kv, MkRow kv.1 kv.2) <$> map_to_list t.

(** The key SQLite gives to a row inserted without one into a table whose
    key is [INTEGER PRIMARY KEY]: one more than the largest key present, and
    1 in an empty table. *)
Definition max_rowid {A} (t : gmap Z A) : option Z :=
  match (map_to_list t).*1 with
  | [] => None
  | k :: ks => Some (foldr Z.max k ks)
  end.

Definition next_rowid {A} (t : gmap Z A) : Z :=
  match max_rowid t with
  | None => 1
  | Some m => m + 1
  end.

(** The range of an SQLite [INTEGER]. *)
Definition INT64_MIN : Z := - 2 ^ 63.
Definition INT64_MAX : Z := 2 ^ 63 - 1.

Definition in_int64 (i : Z) : bool := (INT64_MIN <=? i) && (i <=? INT64_MAX).

(** ** Handlers as a state-and-exception monad *)

(** [OverflowError] is what the database driver raises for a Python [int]
    too large to convert to an SQLite [INTEGER]. *)
Inductive Exception : Type :=
  | HTTPException (status_code : Z) (detail : string)
  | RequestValidationError
  | OverflowError.

Definition HTTP_200_OK : Z := 200.
Definition HTTP_201_CREATED : Z := 201.
Definition HTTP_204_NO_CONTENT : Z := 204.
Definition HTTP_404_NOT_FOUND : Z := 404.
Definition HTTP_422_UNPROCESSABLE_ENTITY : Z := 422.
Definition HTTP_500_INTERNAL_SERVER_ERROR : Z := 500.

Definition Handler (A : Type) : Type := Session → (Exception + A) * Session.

#[global] Instance Handler_ret : MRet Handler := λ A a db, (inr a, db).

#[global] Instance Handler_bind : MBind Handler := λ A B k m db,
  match m db with
  | (inl e, db') => (inl e, db')
  | (inr a, db') => k a db'
  end.

Definition raise {A} (e : Exception) : Handler A := λ db, (inl e, db).

(** Read the database. *)
Definition query {A} (f : Session → A) : Handler A := λ db, (inr (f db), db).

(** A change of the session followed by [db.commit()]. *)
Definition commit (f : Session → Session) : Handler unit := λ db, (inr tt, f db).

(** Binding a client's integer as a parameter of a statement. *)
Definition bind_parameter (i : Z) : Handler unit :=
  if in_int64 i then mret tt else raise OverflowError.

(** ** Helper functions *)

Definition get_athlete_or_404 (i : Z) : Handler (Row AthleteBase) :=
  bind_parameter i;;
  athlete ← query (λ db, athletes db !! i);
  match athlete with
  | None => raise (HTTPException HTTP_404_NOT_FOUND "Athlete not found")
  | Some a => mret (MkRow i a)
  end.

Definition get_achievement_or_404 (i : Z) : Handler (Row AchievementBase) :=
  bind_parameter i;;
  achievement ← query (λ db, achievements db !! i);
  match achievement with
  | None => raise (HTTPException HTTP_404_NOT_FOUND "Achievement not found")
  | Some a => mret (MkRow i a)
  end.

(** The relationship [DBAthlete.achievements]: the rows of [achievements]
    whose foreign key is the athlete's key. *)
Definition relationship_achievements (athlete : Row AthleteBase) (db : Session)
  : list (Row AchievementBase) :=
  all (filter (λ kv, athlete_id kv.2 = id athlete) (achievements db)).

(** [db.delete] of one achievement: [DELETE ... WHERE achievements.id = ?]. *)
Definition delete_DBAchievement (a : Row AchievementBase) (db : Session) : Session :=
  DB (athletes db) (delete (id a) (achievements db)).

(** [db.delete] of an athlete.  The relationship is declared with
    [cascade="all, delete"]: the unit of work loads the athlete's
    achievements, deletes each of them by key, then deletes the athlete. *)
Definition delete_DBAthlete (athlete : Row AthleteBase) (db : Session) : Session :=
  let db' := foldr delete_DBAchievement db (relationship_achievements athlete db) in
  DB (delete (id athlete) (athletes db')) (achievements db').

(** [db.add] of a new object followed by [db.commit] and [db.refresh]: the
    row is stored under the key the engine assigns, and the object comes back
    with that key. *)
Definition add_DBAthlete (a : AthleteBase) : Handler (Row AthleteBase) :=
  i ← query (λ db, next_rowid (athletes db));
  commit (λ db, DB (<[i := a]> (athletes db)) (achievements db));;
  mret (MkRow i a).

Definition add_DBAchievement (a : AchievementBase) : Handler (Row AchievementBase) :=
  i ← query (λ db, next_rowid (achievements db));
  commit (λ db, DB (athletes db) (<[i := a]> (achievements db)));;
  mret (MkRow i a).

(** ** API endpoints: the handler bodies *)

Definition get_athletes : Handler (list AthleteResponse) :=
  query (λ db, all (athletes db)).

Definition create_athlete (athlete : AthleteBase) : Handler AthleteResponse :=
  add_DBAthlete athlete.

Definition get_athlete_achievements (i : Z) : Handler (list AchievementResponse) :=
  athlete ← get_athlete_or_404 i;
  query (relationship_achievements athlete).

Definition delete_athlete (i : Z) : Handler unit :=
  athlete ← get_athlete_or_404 i;
  commit (delete_DBAthlete athlete).

Definition get_achievements (filter_id : option Z) : Handler (list AchievementResponse) :=
  match filter_id with
  | Some i =>
      bind_parameter i;;
      query (λ db, all (filter (λ kv, athlete_id kv.2 = i) (achievements db)))
  | None => query (λ db, all (achievements db))
  end.

Definition create_achievement (achievement : AchievementBase) : Handler AchievementResponse :=
  get_athlete_or_404 (athlete_id achievement);;
  add_DBAchievement achievement.

Definition delete_achievement (i : Z) : Handler unit :=
  achievement ← get_achievement_or_404 i;
  commit (delete_DBAchievement achievement).

(** ** Routing layer *)

(** What the client sees: a status code and, on success, the value the
    handler returned. *)
Record Response (A : Type) : Type := MkResponse { status : Z; content : option A }.
Arguments MkResponse {A} _ _.
Arguments status {A} _.
Arguments content {A} _.

(** [HTTPException] carries its own status code; a body rejected by pydantic
    is answered with 422; any other exception reaches the server's error
    handler, which answers 500. *)
Definition exception_status (e : Exception) : Z :=
  match e with
  | HTTPException status_code _ => status_code
  | RequestValidationError => HTTP_422_UNPROCESSABLE_ENTITY
  | OverflowError => HTTP_500_INTERNAL_SERVER_ERROR
  end.

(** [@app.<method>(path, status_code=...)] around a handler.  The session of
    [get_db] is closed on every exit path; what was committed stays. *)
Definition route {A} (status_code : Z) (h : Handler A) (db : Session)
  : Response A * Session :=
  match h db with
  | (inr a, db') => (MkResponse status_code (Some a), db')
  | (inl e, db') => (MkResponse (exception_status e) None, db')
  end.

(** A body parameter annotated with a pydantic model: the handler only ever
    runs on a body that passed validation. *)
Definition Body {A} (valid : A → bool) (b : A) : Handler A :=
  if valid b then mret b else raise RequestValidationError.

Definition GET_athletes : Session → Response (list AthleteResponse) * Session :=
  route HTTP_200_OK get_athletes.

Definition POST_athletes (body : AthleteBase)
  : Session → Response AthleteResponse * Session :=
  route HTTP_201_CREATED (athlete ← Body AthleteCreate_valid body; create_athlete athlete).

Definition GET_athlete_achievements (i : Z)
  : Session → Response (list AchievementResponse) * Session :=
  route HTTP_200_OK (get_athlete_achievements i).

Definition DELETE_athlete (i : Z) : Session → Response unit * Session :=
  route HTTP_204_NO_CONTENT (delete_athlete i).

Definition GET_achievements (filter_id : option Z)
  : Session → Response (list AchievementResponse) * Session :=
  route HTTP_200_OK (get_achievements filter_id).

Definition POST_achievements (body : AchievementBase)
  : Session → Response AchievementResponse * Session :=
  route HTTP_201_CREATED
    (achievement ← Body AchievementCreate_valid body; create_achievement achievement).

Definition DELETE_achievement (i : Z) : Session → Response unit * Session :=
  route HTTP_204_NO_CONTENT (delete_achievement i).

(** The seven operations of the service as one transition function: the
    status code answered and the database left behind. *)
Inductive Request : Type :=
  | ListAthletes
  | CreateAthlete (body : AthleteBase)
  | ListAthleteAchievements (i : Z)
  | DeleteAthlete (i : Z)
  | ListAchievements (filter_id : option Z)
  | CreateAchievement (body : AchievementBase)
  | DeleteAchievement (i : Z).

Definition answer {A} (r : Response A * Session) : Z * Session :=
  (status r.1, r.2).

Definition app (r : Request) (db : Session) : Z * Session :=
  match r with
  | ListAthletes => answer (GET_athletes db)
  | CreateAthlete body => answer (POST_athletes body db)
  | ListAthleteAchievements i => answer (GET_athlete_achievements i db)
  | DeleteAthlete i => answer (DELETE_athlete i db)
  | ListAchievements filter_id => answer (GET_achievements filter_id db)
  | CreateAchievement body => answer (POST_achievements body db)
  | DeleteAchievement i => answer (DELETE_achievement i db)
  end.

(** The databases the service can be in: the freshly created one and
    whatever a request leaves behind. *)
Inductive reachable : Session → Prop :=
  | reachable_create_all : reachable create_all
  | reachable_app r db : reachable db → reachable (app r db).2.

(** Referential integrity: the foreign key of every achievement is the key
    of a row of [athletes]. *)
Definition referential_integrity (db : Session) : Prop :=
  map_Forall (λ _ a, is_Some (athletes db !! athlete_id a)) (achievements db).

(** The constraint of [Field(..., min_length=1, max_length=100)] in words:
    the string is empty or longer than 100 characters. *)
Definition empty_or_too_long (s : string) : Prop :=
  (String.length s = 0 ∨ 100 < String.length s)%nat.

(** The violations of [AchievementCreate] named by the specification. *)
Definition achievement_violation (body : AchievementBase) : Prop :=
  empty_or_too_long (sport body) ∨ empty_or_too_long (result body)
  ∨ datetime.is_calendar_date (date body) = false.

(** A body with an empty [sport] that refers to athlete 1. *)
Definition nameless_sport : AchievementBase :=
  Achievement "" "9.58s" (datetime.Date 2024 1 1) 1.

(** ** Example data *)

Definition alice : AthleteBase := Athlete "Alice" "US".
Definition bob : AthleteBase := Athlete "Bob" "UK".
Definition sprint : AchievementBase :=
  Achievement "Run" "9.58s" (datetime.Date 2024 1 1) 1.
Definition jump : AchievementBase :=
  Achievement "Jump" "8.95m" (datetime.Date 2024 2 29) 2.

(** Two athletes; the first has one achievement, the second has one too. *)
Definition db_example : Session :=
  DB (<[1 := alice]> (<[2 := bob]> ∅)) (<[1 := sprint]> (<[2 := jump]> ∅)).

(** The database after creating Alice and one achievement of hers. *)
Definition db_alice : Session :=
  (app (CreateAchievement sprint) (app (CreateAthlete alice) create_all).2).2.

(** * Properties *)

(** ** Tables *)

Section tables.
Context {A : Type}.
Implicit Types (t : gmap Z A) (r : Row A).

Lemma elem_of_all t r : r ∈ all t ↔ t !! id r = Some (columns r).
Proof.
  unfold all. rewrite list_elem_of_fmap. split.
  - intros [[k v] [-> Hin]]. by apply elem_of_map_to_list in Hin.
  - intros Hl. exists (id r, columns r). split; [by destruct r|].
    by apply elem_of_map_to_list.
Qed.

Lemma NoDup_all t : NoDup (all t).
Proof.
  unfold all. apply NoDup_fmap_2; [|apply NoDup_map_to_list].
  intros [k1 v1] [k2 v2] Heq. by inversion Heq.
Qed.

Lemma all_ids t : id <$> all t = (map_to_list t).*1.
Proof. unfold all. rewrite <- list_fmap_compose. by apply list_fmap_ext. Qed.

Lemma all_insert t k v :
  t !! k = None → all (<[k := v]> t) ≡ₚ MkRow k v :: all t.
Proof. intros Hk. unfold all. by rewrite map_to_list_insert. Qed.

Lemma foldr_max_ge (k : Z) (ks : list Z) x :
  x ∈ k :: ks → x ≤ foldr Z.max k ks.
Proof.
  induction ks as [|k' ks IH]; simpl.
  - intros ->%list_elem_of_singleton. lia.
  - rewrite !elem_of_cons. intros [->|[->|Hin]].
    + assert (k ≤ foldr Z.max k ks) by (apply IH; left). lia.
    + lia.
    + assert (x ≤ foldr Z.max k ks) by (apply IH; by right). lia.
Qed.

Lemma max_rowid_ge t k m :
  is_Some (t !! k) → max_rowid t = Some m → k ≤ m.
Proof.
  intros [v Hv]. unfold max_rowid.
  assert (Hin : k ∈ (map_to_list t).*1).
  { apply list_elem_of_fmap. exists (k, v). split; [done|].
    by apply elem_of_map_to_list. }
  destruct ((map_to_list t).*1) as [|k0 ks]; [by apply not_elem_of_nil in Hin|].
  intros [= <-]. by apply foldr_max_ge.
Qed.

(** The key of a new row is not the key of any row of the table. *)
Lemma next_rowid_fresh t : t !! next_rowid t = None.
Proof.
  destruct (t !! next_rowid t) as [v|] eqn:Hl; [|done]. exfalso.
  unfold next_rowid in Hl. destruct (max_rowid t) as [m|] eqn:Hm.
  - assert (m + 1 ≤ m) by (eapply max_rowid_ge; eauto). lia.
  - unfold max_rowid in Hm.
    apply elem_of_map_to_list in Hl.
    destruct (map_to_list t); [by apply not_elem_of_nil in Hl|done].
Qed.

(** Deleting a list of rows one by one, by key. *)
Lemma lookup_foldr_delete t (l : list (Row A)) k :
  foldr (λ r m, delete (id r) m) t l !! k
  = if decide (k ∈ id <$> l) then None else t !! k.
Proof.
  induction l as [|r l IH]; simpl.
  - done.
  - rewrite lookup_delete, IH.
    destruct (decide (id r = k)) as [<-|Hne].
    + rewrite decide_True; [done|by left].
    + destruct (decide (k ∈ id <$> l)) as [Hin|Hnin].
      * rewrite decide_True; [done|by right].
      * rewrite decide_False; [done|].
        intros [Heq|Hin]%elem_of_cons; [by apply Hne|by apply Hnin].
Qed.

End tables.

Lemma elem_of_all_ids {A} (t : gmap Z A) k : k ∈ id <$> all t ↔ is_Some (t !! k).
Proof.
  rewrite list_elem_of_fmap. split.
  - intros [r [-> Hr]]. apply elem_of_all in Hr. eauto.
  - intros [v Hv]. exists (MkRow k v). split; [done|]. by apply elem_of_all.
Qed.

(** ** The unit of work *)

Lemma foldr_delete_DBAchievement db l :
  foldr delete_DBAchievement db l
  = DB (athletes db) (foldr (λ r m, delete (id r) m) (achievements db) l).
Proof.
  induction l as [|r l IH]; simpl; [by destruct db|].
  rewrite IH. reflexivity.
Qed.

(** Deleting an athlete through the ORM leaves exactly the achievements of
    the other athletes. *)
Lemma delete_DBAthlete_tables athlete db :
  delete_DBAthlete athlete db
  = DB (delete (id athlete) (athletes db))
       (filter (λ kv, athlete_id kv.2 ≠ id athlete) (achievements db)).
Proof.
  unfold delete_DBAthlete, relationship_achievements.
  rewrite foldr_delete_DBAchievement. simpl. f_equal.
  apply map_eq. intros k. rewrite lookup_foldr_delete.
  apply option_eq. intros v. rewrite map_lookup_filter_Some. simpl.
  case_decide as Hin.
  - apply elem_of_all_ids in Hin as [w Hw].
    apply map_lookup_filter_Some in Hw as [Hw Hfk]. simpl in Hfk.
    split; [done|]. intros [Hv Hne]. rewrite Hw in Hv. by simplify_eq.
  - split; [|by intros [? _]].
    intros Hv. split; [done|]. intros Hfk. apply Hin.
    apply elem_of_all_ids. exists v. by apply map_lookup_filter_Some.
Qed.

(** ** What each handler computes *)

Lemma get_athlete_or_404_eq i db :
  get_athlete_or_404 i db
  = if in_int64 i
    then match athletes db !! i with
         | Some a => (inr (MkRow i a), db)
         | None => (inl (HTTPException HTTP_404_NOT_FOUND "Athlete not found"), db)
         end
    else (inl OverflowError, db).
Proof.
  unfold get_athlete_or_404, bind_parameter, mbind, Handler_bind, query.
  unfold mret, Handler_ret, raise.
  destruct (in_int64 i); simpl; [|reflexivity].
  destruct (athletes db !! i); reflexivity.
Qed.

Lemma get_achievement_or_404_eq i db :
  get_achievement_or_404 i db
  = if in_int64 i
    then match achievements db !! i with
         | Some a => (inr (MkRow i a), db)
         | None =>
             (inl (HTTPException HTTP_404_NOT_FOUND "Achievement not found"), db)
         end
    else (inl OverflowError, db).
Proof.
  unfold get_achievement_or_404, bind_parameter, mbind, Handler_bind, query.
  unfold mret, Handler_ret, raise.
  destruct (in_int64 i); simpl; [|reflexivity].
  destruct (achievements db !! i); reflexivity.
Qed.

Lemma bind_eq {A B} (m : Handler A) (k : A → Handler B) db :
  (m ≫= k) db
  = match m db with (inl e, db') => (inl e, db') | (inr a, db') => k a db' end.
Proof. reflexivity. Qed.

Lemma DELETE_athlete_eq i db :
  DELETE_athlete i db
  = if in_int64 i
    then match athletes db !! i with
         | None => (MkResponse HTTP_404_NOT_FOUND None, db)
         | Some _ =>
             (MkResponse HTTP_204_NO_CONTENT (Some tt),
              DB (delete i (athletes db))
                 (filter (λ kv, athlete_id kv.2 ≠ i) (achievements db)))
         end
    else (MkResponse HTTP_500_INTERNAL_SERVER_ERROR None, db).
Proof.
  unfold DELETE_athlete, route, delete_athlete.
  rewrite bind_eq, get_athlete_or_404_eq.
  destruct (in_int64 i); [|reflexivity].
  destruct (athletes db !! i) as [a|]; [|reflexivity].
  unfold commit. by rewrite delete_DBAthlete_tables.
Qed.

Lemma DELETE_achievement_eq i db :
  DELETE_achievement i db
  = if in_int64 i
    then match achievements db !! i with
         | None => (MkResponse HTTP_404_NOT_FOUND None, db)
         | Some _ =>
             (MkResponse HTTP_204_NO_CONTENT (Some tt),
              DB (athletes db) (delete i (achievements db)))
         end
    else (MkResponse HTTP_500_INTERNAL_SERVER_ERROR None, db).
Proof.
  unfold DELETE_achievement, route, delete_achievement.
  rewrite bind_eq, get_achievement_or_404_eq.
  destruct (in_int64 i); [|reflexivity].
  destruct (achievements db !! i); reflexivity.
Qed.

Lemma POST_athletes_eq body db :
  POST_athletes body db
  = if AthleteCreate_valid body
    then (MkResponse HTTP_201_CREATED (Some (MkRow (next_rowid (athletes db)) body)),
          DB (<[next_rowid (athletes db) := body]> (athletes db)) (achievements db))
    else (MkResponse HTTP_422_UNPROCESSABLE_ENTITY None, db).
Proof.
  unfold POST_athletes, route. rewrite bind_eq. unfold Body.
  destruct (AthleteCreate_valid body); reflexivity.
Qed.

Lemma POST_achievements_eq body db :
  POST_achievements body db
  = if AchievementCreate_valid body
    then if in_int64 (athlete_id body)
         then match athletes db !! athlete_id body with
              | None => (MkResponse HTTP_404_NOT_FOUND None, db)
              | Some _ =>
                  (MkResponse HTTP_201_CREATED
                     (Some (MkRow (next_rowid (achievements db)) body)),
                   DB (athletes db)
                      (<[next_rowid (achievements db) := body]> (achievements db)))
              end
         else (MkResponse HTTP_500_INTERNAL_SERVER_ERROR None, db)
    else (MkResponse HTTP_422_UNPROCESSABLE_ENTITY None, db).
Proof.
  unfold POST_achievements, route. rewrite bind_eq. unfold Body.
  destruct (AchievementCreate_valid body); [|reflexivity].
  simpl. unfold create_achievement. rewrite bind_eq, get_athlete_or_404_eq.
  destruct (in_int64 (athlete_id body)); [|reflexivity].
  destruct (athletes db !! athlete_id body); reflexivity.
Qed.

Lemma GET_athlete_achievements_eq i db :
  GET_athlete_achievements i db
  = if in_int64 i
    then match athletes db !! i with
         | None => (MkResponse HTTP_404_NOT_FOUND None, db)
         | Some _ =>
             (MkResponse HTTP_200_OK
                (Some (all (filter (λ kv, athlete_id kv.2 = i) (achievements db)))),
              db)
         end
    else (MkResponse HTTP_500_INTERNAL_SERVER_ERROR None, db).
Proof.
  unfold GET_athlete_achievements, route, get_athlete_achievements.
  rewrite bind_eq, get_athlete_or_404_eq.
  destruct (in_int64 i); [|reflexivity].
  destruct (athletes db !! i); reflexivity.
Qed.

Lemma GET_achievements_eq filter_id db :
  GET_achievements filter_id db
  = match filter_id with
    | None => (MkResponse HTTP_200_OK (Some (all (achievements db))), db)
    | Some i =>
        if in_int64 i
        then (MkResponse HTTP_200_OK
                (Some (all (filter (λ kv, athlete_id kv.2 = i) (achievements db)))),
              db)
        else (MkResponse HTTP_500_INTERNAL_SERVER_ERROR None, db)
    end.
Proof.
  unfold GET_achievements, route, get_achievements.
  destruct filter_id as [i|]; [|reflexivity].
  rewrite bind_eq. unfold bind_parameter. destruct (in_int64 i); reflexivity.
Qed.

(** ** Field constraints *)

Lemma Field_str_false s : Field_str s = false ↔ empty_or_too_long s.
Proof.
  unfold Field_str, empty_or_too_long.
  rewrite andb_false_iff, !Nat.leb_gt. lia.
Qed.

Lemma AthleteCreate_valid_false b :
  AthleteCreate_valid b = false
  ↔ empty_or_too_long (name b) ∨ empty_or_too_long (country b).
Proof.
  unfold AthleteCreate_valid.
  by rewrite andb_false_iff, !Field_str_false.
Qed.

Lemma AchievementCreate_valid_false b :
  AchievementCreate_valid b = false
  ↔ empty_or_too_long (sport b) ∨ empty_or_too_long (result b)
    ∨ datetime.is_calendar_date (date b) = false.
Proof.
  unfold AchievementCreate_valid.
  rewrite !andb_false_iff, !Field_str_false. tauto.
Qed.

(** ** Deleting *)

(** C1. The claim answers 404 for every identifier that is absent.  The
    code does so only for identifiers the engine can hold: for an identifier
    outside the signed 64-bit range [get_athlete_or_404] raises
    [OverflowError] before it can look, and the deletion is answered 500
    (the database is left as it was). *)
Theorem delete_athlete_out_of_range (db : Session) (i : Z) :
  in_int64 i = false →
  DELETE_athlete i db = (MkResponse HTTP_500_INTERNAL_SERVER_ERROR None, db).
Proof. intros Hi. by rewrite DELETE_athlete_eq, Hi. Qed.

Lemma delete_athlete_out_of_range_witness :
  in_int64 (2 ^ 63) = false ∧
  athletes create_all !! (2 ^ 63) = None ∧
  DELETE_athlete (2 ^ 63) create_all
  = (MkResponse HTTP_500_INTERNAL_SERVER_ERROR None, create_all).
Proof.
  split; [reflexivity|]. split; [reflexivity|].
  exact (delete_athlete_out_of_range create_all (2 ^ 63) eq_refl).
Defined.

(** X19. For an identifier within the signed 64-bit range: deleting an
    athlete whose identifier is absent answers 404 and leaves the database
    as it was.  Deleting an athlete whose identifier is present answers 204
    with no content, removes that athlete and no other, and removes every
    achievement whose [athlete_id] is that identifier (and no other
    achievement). *)
Theorem delete_athlete_cascade (db : Session) (i : Z) :
  in_int64 i = true →
  (athletes db !! i = None →
     DELETE_athlete i db = (MkResponse HTTP_404_NOT_FOUND None, db)) ∧
  (is_Some (athletes db !! i) →
     (DELETE_athlete i db).1 = MkResponse HTTP_204_NO_CONTENT (Some tt) ∧
     athletes (DELETE_athlete i db).2 = delete i (athletes db) ∧
     (∀ k a, achievements (DELETE_athlete i db).2 !! k = Some a
             ↔ achievements db !! k = Some a ∧ athlete_id a ≠ i)).
Proof.
  intros Hi. rewrite DELETE_athlete_eq, Hi. split.
  - by intros ->.
  - intros [a ->]. simpl. split_and!; [done..|].
    intros k b. by rewrite map_lookup_filter_Some.
Qed.

Lemma delete_athlete_cascade_witness :
  in_int64 1 = true ∧
  is_Some (athletes db_example !! 1) ∧
  (DELETE_athlete 1 db_example).1 = MkResponse HTTP_204_NO_CONTENT (Some tt) ∧
  athletes (DELETE_athlete 1 db_example).2 = delete 1 (athletes db_example) ∧
  (∀ k a, achievements (DELETE_athlete 1 db_example).2 !! k = Some a
          ↔ achievements db_example !! k = Some a ∧ athlete_id a ≠ 1).
Proof.
  split; [reflexivity|]. split; [by exists alice|].
  apply (proj2 (delete_athlete_cascade db_example 1 eq_refl)). by exists alice.
Defined.

(** C8. The claim answers 404 for every identifier that is absent.  For an
    identifier outside the signed 64-bit range [get_achievement_or_404]
    raises [OverflowError] before it can look, and the deletion is answered
    500 (the database is left as it was). *)
Theorem delete_achievement_out_of_range (db : Session) (i : Z) :
  in_int64 i = false →
  DELETE_achievement i db = (MkResponse HTTP_500_INTERNAL_SERVER_ERROR None, db).
Proof. intros Hi. by rewrite DELETE_achievement_eq, Hi. Qed.

Lemma delete_achievement_out_of_range_witness :
  in_int64 (- 2 ^ 63 - 1) = false ∧
  achievements db_example !! (- 2 ^ 63 - 1) = None ∧
  DELETE_achievement (- 2 ^ 63 - 1) db_example
  = (MkResponse HTTP_500_INTERNAL_SERVER_ERROR None, db_example).
Proof.
  split; [reflexivity|]. split; [reflexivity|].
  exact (delete_achievement_out_of_range db_example (- 2 ^ 63 - 1) eq_refl).
Defined.

(** X20. For an identifier within the signed 64-bit range: deleting an
    achievement whose identifier is absent answers 404 and leaves the
    database as it was; otherwise the answer is 204 with no content, the
    table of athletes is untouched and the table of achievements loses
    exactly the row with that identifier. *)
Theorem delete_achievement_exact (db : Session) (i : Z) :
  in_int64 i = true →
  (achievements db !! i = None →
     DELETE_achievement i db = (MkResponse HTTP_404_NOT_FOUND None, db)) ∧
  (is_Some (achievements db !! i) →
     (DELETE_achievement i db).1 = MkResponse HTTP_204_NO_CONTENT (Some tt) ∧
     athletes (DELETE_achievement i db).2 = athletes db ∧
     achievements (DELETE_achievement i db).2 !! i = None ∧
     (∀ k, k ≠ i →
        achievements (DELETE_achievement i db).2 !! k = achievements db !! k)).
Proof.
  intros Hi. rewrite DELETE_achievement_eq, Hi. split.
  - by intros ->.
  - intros [a ->]. simpl. split_and!; [done..| |].
    + apply lookup_delete_eq.
    + intros k Hk. by apply lookup_delete_ne.
Qed.

Lemma delete_achievement_exact_witness :
  in_int64 2 = true ∧
  is_Some (achievements db_example !! 2) ∧
  (DELETE_achievement 2 db_example).1 = MkResponse HTTP_204_NO_CONTENT (Some tt) ∧
  athletes (DELETE_achievement 2 db_example).2 = athletes db_example ∧
  achievements (DELETE_achievement 2 db_example).2 !! 2 = None ∧
  (∀ k, k ≠ 2 →
     achievements (DELETE_achievement 2 db_example).2 !! k
     = achievements db_example !! k).
Proof.
  split; [reflexivity|]. split; [by exists jump|].
  apply (proj2 (delete_achievement_exact db_example 2 eq_refl)). by exists jump.
Defined.

(** ** Listing *)

(** C5. The claim returns the matching achievements for every filter value.
    For a filter outside the signed 64-bit range the query of
    [get_achievements] raises [OverflowError] when it runs, and the listing
    is answered 500 with no list at all. *)
Theorem get_achievements_filter_out_of_range (db : Session) (i : Z) :
  in_int64 i = false →
  GET_achievements (Some i) db
  = (MkResponse HTTP_500_INTERNAL_SERVER_ERROR None, db).
Proof. intros Hi. by rewrite GET_achievements_eq, Hi. Qed.

Lemma get_achievements_filter_out_of_range_witness :
  in_int64 (2 ^ 63) = false ∧
  GET_achievements (Some (2 ^ 63)) db_example
  = (MkResponse HTTP_500_INTERNAL_SERVER_ERROR None, db_example).
Proof.
  split; [reflexivity|].
  exact (get_achievements_filter_out_of_range db_example (2 ^ 63) eq_refl).
Defined.

(** X21. Listing achievements with an [athlete_id] filter within the signed
    64-bit range answers 200 with exactly the rows of [achievements] whose
    [athlete_id] is the given value, each once; without a filter it answers
    200 with every row, each once. *)
Theorem get_achievements_filter (db : Session) :
  (∀ i, in_int64 i = true → ∃ l,
     GET_achievements (Some i) db = (MkResponse HTTP_200_OK (Some l), db) ∧
     NoDup l ∧
     ∀ r, r ∈ l ↔ achievements db !! id r = Some (columns r)
                  ∧ athlete_id (columns r) = i) ∧
  (∃ l,
     GET_achievements None db = (MkResponse HTTP_200_OK (Some l), db) ∧
     NoDup l ∧
     ∀ r, r ∈ l ↔ achievements db !! id r = Some (columns r)).
Proof.
  split.
  - intros i Hi. rewrite GET_achievements_eq, Hi.
    eexists. split; [reflexivity|]. split; [apply NoDup_all|].
    intros r. by rewrite elem_of_all, map_lookup_filter_Some.
  - eexists. split; [reflexivity|]. split; [apply NoDup_all|].
    intros r. apply elem_of_all.
Qed.

Lemma get_achievements_filter_witness :
  in_int64 2 = true ∧
  ∃ l,
    GET_achievements (Some 2) db_example
    = (MkResponse HTTP_200_OK (Some l), db_example) ∧
    NoDup l ∧
    ∀ r, r ∈ l ↔ achievements db_example !! id r = Some (columns r)
                 ∧ athlete_id (columns r) = 2.
Proof.
  split; [reflexivity|].
  exact (proj1 (get_achievements_filter db_example) 2 eq_refl).
Defined.

(** C6. The claim answers 404 whenever no athlete has the identifier.  For
    an identifier outside the signed 64-bit range no athlete has it, yet
    [get_athlete_or_404] raises [OverflowError] before it can look, and the
    listing is answered 500. *)
Theorem get_athlete_achievements_out_of_range (db : Session) (i : Z) :
  in_int64 i = false →
  GET_athlete_achievements i db
  = (MkResponse HTTP_500_INTERNAL_SERVER_ERROR None, db).
Proof. intros Hi. by rewrite GET_athlete_achievements_eq, Hi. Qed.

Lemma get_athlete_achievements_out_of_range_witness :
  in_int64 (2 ^ 64) = false ∧
  athletes db_example !! (2 ^ 64) = None ∧
  GET_athlete_achievements (2 ^ 64) db_example
  = (MkResponse HTTP_500_INTERNAL_SERVER_ERROR None, db_example).
Proof.
  split; [reflexivity|]. split; [reflexivity|].
  exact (get_athlete_achievements_out_of_range db_example (2 ^ 64) eq_refl).
Defined.

(** X22. For an identifier within the signed 64-bit range: listing the
    achievements of an athlete answers 404 when no athlete has that
    identifier, and otherwise answers 200 with exactly the rows of
    [achievements] whose [athlete_id] is that identifier, each once. *)
Theorem get_athlete_achievements_owned (db : Session) (i : Z) :
  in_int64 i = true →
  (athletes db !! i = None →
     GET_athlete_achievements i db = (MkResponse HTTP_404_NOT_FOUND None, db)) ∧
  (is_Some (athletes db !! i) →
     ∃ l,
       GET_athlete_achievements i db = (MkResponse HTTP_200_OK (Some l), db) ∧
       NoDup l ∧
       ∀ r, r ∈ l ↔ achievements db !! id r = Some (columns r)
                    ∧ athlete_id (columns r) = i).
Proof.
  intros Hi. rewrite GET_athlete_achievements_eq, Hi. split.
  - by intros ->.
  - intros [a ->]. eexists. split; [reflexivity|]. split; [apply NoDup_all|].
    intros r. by rewrite elem_of_all, map_lookup_filter_Some.
Qed.

Lemma get_athlete_achievements_owned_witness :
  in_int64 2 = true ∧
  is_Some (athletes db_example !! 2) ∧
  ∃ l,
    GET_athlete_achievements 2 db_example = (MkResponse HTTP_200_OK (Some l), db_example) ∧
    NoDup l ∧
    ∀ r, r ∈ l ↔ achievements db_example !! id r = Some (columns r)
                 ∧ athlete_id (columns r) = 2.
Proof.
  split; [reflexivity|]. split; [by exists bob|].
  apply (proj2 (get_athlete_achievements_owned db_example 2 eq_refl)).
  by exists bob.
Defined.

(** C9. The three read operations leave both tables as they were, whatever
    they answer: listing the athletes, listing the achievements of an athlete
    (found or not), and listing the achievements with or without a filter. *)
Theorem reads_leave_database_unchanged (db : Session) :
  (GET_athletes db).2 = db ∧
  (∀ i, (GET_athlete_achievements i db).2 = db) ∧
  (∀ filter_id, (GET_achievements filter_id db).2 = db).
Proof.
  split_and!.
  - reflexivity.
  - intros i. rewrite GET_athlete_achievements_eq.
    destruct (in_int64 i); [|done]. by destruct (athletes db !! i).
  - intros filter_id. rewrite GET_achievements_eq.
    destruct filter_id as [i|]; [|done]. by destruct (in_int64 i).
Qed.

(** ** Creating an athlete *)

Lemma filter_none {A} (P : A → Prop) `{∀ x, Decision (P x)} (l : list A) :
  (∀ x, x ∈ l → ¬ P x) → filter P l = [].
Proof.
  induction l as [|x l IH]; intros Hl; [done|].
  rewrite filter_cons_False by (apply Hl; left).
  apply IH. intros y Hy. apply Hl. by right.
Qed.

(** After an insertion under a fresh key, the listing of the table has
    exactly one row with that key. *)
Lemma all_insert_once {A} (t : gmap Z A) k v :
  t !! k = None →
  length (filter (λ r, id r = k) (all (<[k := v]> t))) = 1%nat.
Proof.
  intros Hk. rewrite (all_insert t k v Hk).
  rewrite filter_cons_True by done.
  rewrite filter_none; [done|].
  intros r Hr%elem_of_all Heq. rewrite Heq in Hr. congruence.
Qed.

(** C4. Creating an athlete answers 422 if and only if [name] or [country]
    is empty or longer than 100 characters, and then the database is as it
    was.  Otherwise it answers 201 with the given name and country under an
    identifier that no row of [athletes] had, and the database gains exactly
    that row. *)
Theorem create_athlete_validation (db : Session) (body : AthleteBase) :
  (status (POST_athletes body db).1 = HTTP_422_UNPROCESSABLE_ENTITY
   ↔ empty_or_too_long (name body) ∨ empty_or_too_long (country body)) ∧
  (empty_or_too_long (name body) ∨ empty_or_too_long (country body) →
     POST_athletes body db = (MkResponse HTTP_422_UNPROCESSABLE_ENTITY None, db)) ∧
  (¬ (empty_or_too_long (name body) ∨ empty_or_too_long (country body)) →
     ∃ i : Z,
       athletes db !! i = None ∧
       POST_athletes body db
       = (MkResponse HTTP_201_CREATED (Some (MkRow i body)),
          DB (<[i := body]> (athletes db)) (achievements db))).
Proof.
  rewrite POST_athletes_eq, <- AthleteCreate_valid_false.
  destruct (AthleteCreate_valid body); simpl; split_and!; try done.
  intros _. exists (next_rowid (athletes db)).
  split; [apply next_rowid_fresh|done].
Qed.

Lemma create_athlete_validation_witness :
  ¬ (empty_or_too_long (name alice) ∨ empty_or_too_long (country alice)) ∧
  ∃ i : Z,
    athletes db_example !! i = None ∧
    POST_athletes alice db_example
    = (MkResponse HTTP_201_CREATED (Some (MkRow i alice)),
       DB (<[i := alice]> (athletes db_example)) (achievements db_example)).
Proof.
  assert (Hok : ¬ (empty_or_too_long (name alice) ∨ empty_or_too_long (country alice))).
  { unfold empty_or_too_long. simpl. lia. }
  split; [exact Hok|].
  exact (proj2 (proj2 (create_athlete_validation db_example alice)) Hok).
Defined.

(** C7. After creating an athlete from a valid body, the list of all
    athletes contains the created athlete (the assigned identifier with the
    given name and country) exactly once, and no other row with that
    identifier. *)
Theorem create_athlete_then_list (db : Session) (body : AthleteBase) :
  AthleteCreate_valid body = true →
  ∃ (new : AthleteResponse) (l : list AthleteResponse),
    (POST_athletes body db).1 = MkResponse HTTP_201_CREATED (Some new) ∧
    columns new = body ∧
    (GET_athletes (POST_athletes body db).2).1 = MkResponse HTTP_200_OK (Some l) ∧
    length (filter (λ r, r = new) l) = 1%nat ∧
    length (filter (λ r, id r = id new) l) = 1%nat.
Proof.
  intros Hvalid. rewrite POST_athletes_eq, Hvalid. simpl.
  set (i := next_rowid (athletes db)).
  assert (Hfresh : athletes db !! i = None) by apply next_rowid_fresh.
  exists (MkRow i body), (all (<[i := body]> (athletes db))).
  split_and!; [done..| |by apply all_insert_once].
  rewrite (all_insert _ i body Hfresh).
  rewrite filter_cons_True by done.
  rewrite filter_none; [done|].
  intros r Hr%elem_of_all ->. simpl in Hr. congruence.
Qed.

Lemma create_athlete_then_list_witness :
  AthleteCreate_valid bob = true ∧
  ∃ (new : AthleteResponse) (l : list AthleteResponse),
    (POST_athletes bob db_example).1 = MkResponse HTTP_201_CREATED (Some new) ∧
    columns new = bob ∧
    (GET_athletes (POST_athletes bob db_example).2).1
    = MkResponse HTTP_200_OK (Some l) ∧
    length (filter (λ r, r = new) l) = 1%nat ∧
    length (filter (λ r, id r = id new) l) = 1%nat.
Proof.
  split; [reflexivity|].
  apply (create_athlete_then_list db_example bob). reflexivity.
Defined.

(** ** Creating an achievement *)

(** C3, as stated, fails: a body that violates a field constraint is
    answered with 422 even when its [athlete_id] matches no athlete, because
    the body is validated before [create_achievement] runs. *)
Lemma create_achievement_not_always_404 :
  ¬ (∀ (db : Session) (body : AchievementBase),
       athletes db !! athlete_id body = None →
       status (POST_achievements body db).1 = HTTP_404_NOT_FOUND).
Proof.
  intros Hclaim.
  specialize (Hclaim create_all nameless_sport eq_refl).
  vm_compute in Hclaim. discriminate Hclaim.
Qed.

(** C3, amended.  Creating an achievement answers 422 when [sport] or
    [result] is empty or longer than 100 characters or [date] is not a
    calendar date, whether or not the athlete exists; it answers 404 when the
    body passes validation and its [athlete_id], within the signed 64-bit
    range, matches no athlete; in both cases the database is as it was.  When
    the body passes validation and its [athlete_id], within that range,
    matches an athlete, it answers 201 with the given fields under an
    identifier that no row of [achievements] had, and the database gains
    exactly that row. *)
Theorem create_achievement_checks (db : Session) (body : AchievementBase) :
  (achievement_violation body →
     POST_achievements body db
     = (MkResponse HTTP_422_UNPROCESSABLE_ENTITY None, db)) ∧
  (¬ achievement_violation body → in_int64 (athlete_id body) = true →
   athletes db !! athlete_id body = None →
     POST_achievements body db = (MkResponse HTTP_404_NOT_FOUND None, db)) ∧
  (¬ achievement_violation body → in_int64 (athlete_id body) = true →
   is_Some (athletes db !! athlete_id body) →
     ∃ i : Z,
       achievements db !! i = None ∧
       POST_achievements body db
       = (MkResponse HTTP_201_CREATED (Some (MkRow i body)),
          DB (athletes db) (<[i := body]> (achievements db)))).
Proof.
  unfold achievement_violation.
  rewrite POST_achievements_eq, <- AchievementCreate_valid_false.
  destruct (AchievementCreate_valid body); simpl; split_and!; try done.
  - by intros _ -> ->.
  - intros _ -> [a ->]. exists (next_rowid (achievements db)).
    split; [apply next_rowid_fresh|done].
Qed.

Lemma sprint_passes_validation : ¬ achievement_violation sprint.
Proof.
  unfold achievement_violation, empty_or_too_long. simpl.
  intros [?|[?|?]]; [lia|lia|discriminate].
Defined.

Lemma create_achievement_checks_witness :
  ¬ achievement_violation sprint ∧
  in_int64 (athlete_id sprint) = true ∧
  is_Some (athletes db_example !! athlete_id sprint) ∧
  ∃ i : Z,
    achievements db_example !! i = None ∧
    POST_achievements sprint db_example
    = (MkResponse HTTP_201_CREATED (Some (MkRow i sprint)),
       DB (athletes db_example) (<[i := sprint]> (achievements db_example))).
Proof.
  assert (Hathlete : is_Some (athletes db_example !! athlete_id sprint))
    by (by exists alice).
  split; [exact sprint_passes_validation|]. split; [reflexivity|].
  split; [exact Hathlete|].
  exact (proj2 (proj2 (create_achievement_checks db_example sprint))
           sprint_passes_validation eq_refl Hathlete).
Defined.

(** ** Referential integrity *)

Lemma referential_integrity_create_all : referential_integrity create_all.
Proof. apply map_Forall_empty. Qed.

Lemma referential_integrity_POST_athletes body db :
  referential_integrity db → referential_integrity (POST_athletes body db).2.
Proof.
  rewrite POST_athletes_eq. destruct (AthleteCreate_valid body); [|done].
  unfold referential_integrity. simpl. intros Hdb.
  eapply map_Forall_impl; [exact Hdb|]. simpl. intros k a Ha.
  apply lookup_insert_is_Some'. by right.
Qed.

Lemma referential_integrity_DELETE_athlete i db :
  referential_integrity db → referential_integrity (DELETE_athlete i db).2.
Proof.
  rewrite DELETE_athlete_eq. destruct (in_int64 i); [|done].
  destruct (athletes db !! i) as [owner|]; [|done].
  unfold referential_integrity. simpl. intros Hdb k a.
  rewrite map_lookup_filter_Some. simpl. intros [Hk Hne].
  rewrite lookup_delete_ne by done. exact (Hdb k a Hk).
Qed.

Lemma referential_integrity_POST_achievements body db :
  referential_integrity db → referential_integrity (POST_achievements body db).2.
Proof.
  rewrite POST_achievements_eq. destruct (AchievementCreate_valid body); [|done].
  destruct (in_int64 (athlete_id body)); [|done].
  destruct (athletes db !! athlete_id body) as [owner|] eqn:Howner; [|done].
  unfold referential_integrity. simpl. intros Hdb.
  apply map_Forall_insert_2; [|done]. by rewrite Howner.
Qed.

Lemma referential_integrity_DELETE_achievement i db :
  referential_integrity db → referential_integrity (DELETE_achievement i db).2.
Proof.
  rewrite DELETE_achievement_eq. destruct (in_int64 i); [|done].
  destruct (achievements db !! i); [|done].
  unfold referential_integrity. simpl. apply map_Forall_delete.
Qed.

Lemma GET_athlete_achievements_db i db : (GET_athlete_achievements i db).2 = db.
Proof.
  rewrite GET_athlete_achievements_eq.
  destruct (in_int64 i); [|done]. by destruct (athletes db !! i).
Qed.

Lemma GET_achievements_db filter_id db : (GET_achievements filter_id db).2 = db.
Proof.
  rewrite GET_achievements_eq.
  destruct filter_id as [i|]; [|done]. by destruct (in_int64 i).
Qed.

Lemma referential_integrity_app r db :
  referential_integrity db → referential_integrity (app r db).2.
Proof.
  destruct r; simpl.
  - done.
  - apply referential_integrity_POST_athletes.
  - by rewrite GET_athlete_achievements_db.
  - apply referential_integrity_DELETE_athlete.
  - by rewrite GET_achievements_db.
  - apply referential_integrity_POST_achievements.
  - apply referential_integrity_DELETE_achievement.
Qed.

Lemma reachable_referential_integrity db :
  reachable db → referential_integrity db.
Proof.
  induction 1 as [|r db _ IH].
  - apply referential_integrity_create_all.
  - by apply referential_integrity_app.
Qed.

Lemma referential_integrity_db_example : referential_integrity db_example.
Proof.
  unfold referential_integrity, db_example. simpl.
  repeat apply map_Forall_insert_2; try apply map_Forall_empty.
  - by exists alice.
  - by exists bob.
Defined.

(** C2. Every achievement's [athlete_id] is the identifier of a row of
    [athletes] in the freshly created database, and each of the seven
    operations, whatever it answers, leaves a database with this property
    when it starts from one. *)
Theorem referential_integrity_invariant :
  referential_integrity create_all ∧
  ∀ (r : Request) (db : Session),
    referential_integrity db → referential_integrity (app r db).2.
Proof.
  split.
  - apply referential_integrity_create_all.
  - intros r db. apply referential_integrity_app.
Qed.

Lemma referential_integrity_invariant_witness :
  referential_integrity db_example ∧
  referential_integrity (app (DeleteAthlete 1) db_example).2.
Proof.
  split; [exact referential_integrity_db_example|].
  exact (proj2 referential_integrity_invariant (DeleteAthlete 1) db_example
           referential_integrity_db_example).
Defined.

(** ** The filter on an unknown athlete *)

Lemma reachable_db_alice : reachable db_alice.
Proof. unfold db_alice. repeat constructor. Defined.

(** C10. The claim answers 200 with the empty list for every [athlete_id]
    that matches no athlete.  For a filter outside the signed 64-bit range,
    which matches no athlete, the query of [get_achievements] raises
    [OverflowError] and the listing is answered 500, no empty list; on the
    same identifier [/athletes/{id}/achievements] is answered 500 as well,
    not 404. *)
Theorem get_achievements_unknown_athlete_out_of_range (db : Session) (i : Z) :
  athletes db !! i = None →
  in_int64 i = false →
  GET_achievements (Some i) db
  = (MkResponse HTTP_500_INTERNAL_SERVER_ERROR None, db) ∧
  GET_athlete_achievements i db
  = (MkResponse HTTP_500_INTERNAL_SERVER_ERROR None, db).
Proof.
  intros _ Hi. by rewrite GET_achievements_eq, GET_athlete_achievements_eq, Hi.
Qed.

Lemma get_achievements_unknown_athlete_out_of_range_witness :
  reachable db_alice ∧
  athletes db_alice !! (2 ^ 63) = None ∧
  in_int64 (2 ^ 63) = false ∧
  GET_achievements (Some (2 ^ 63)) db_alice
  = (MkResponse HTTP_500_INTERNAL_SERVER_ERROR None, db_alice) ∧
  GET_athlete_achievements (2 ^ 63) db_alice
  = (MkResponse HTTP_500_INTERNAL_SERVER_ERROR None, db_alice).
Proof.
  split; [exact reachable_db_alice|]. split; [reflexivity|].
  split; [reflexivity|].
  exact (get_achievements_unknown_athlete_out_of_range db_alice (2 ^ 63)
           eq_refl eq_refl).
Defined.

(** X23. In every database the service can reach, listing the achievements
    filtered by an [athlete_id] within the signed 64-bit range that matches
    no athlete answers 200 with the empty list, whereas listing that
    athlete's achievements through [/athletes/{id}/achievements] answers
    404. *)
Theorem get_achievements_unknown_athlete (db : Session) (i : Z) :
  reachable db →
  in_int64 i = true →
  athletes db !! i = None →
  GET_achievements (Some i) db = (MkResponse HTTP_200_OK (Some []), db) ∧
  GET_athlete_achievements i db = (MkResponse HTTP_404_NOT_FOUND None, db).
Proof.
  intros Hdb%reachable_referential_integrity Hrange Hi. split.
  - rewrite GET_achievements_eq, Hrange.
    replace (filter (λ kv, athlete_id kv.2 = i) (achievements db))
      with (∅ : gmap Z AchievementBase); [by unfold all; rewrite map_to_list_empty|].
    symmetry. apply map_empty_filter. intros k a Hk. simpl. intros <-.
    destruct (Hdb k a Hk) as [b Hb]. congruence.
  - by rewrite GET_athlete_achievements_eq, Hrange, Hi.
Qed.

Lemma get_achievements_unknown_athlete_witness :
  reachable db_alice ∧
  in_int64 2 = true ∧
  athletes db_alice !! 2 = None ∧
  GET_achievements (Some 2) db_alice = (MkResponse HTTP_200_OK (Some []), db_alice) ∧
  GET_athlete_achievements 2 db_alice = (MkResponse HTTP_404_NOT_FOUND None, db_alice).
Proof.
  split; [exact reachable_db_alice|]. split; [reflexivity|]. split; [reflexivity|].
  apply (get_achievements_unknown_athlete db_alice 2 reachable_db_alice eq_refl).
  reflexivity.
Defined.

(** * Further properties of the handlers *)

(** ** Auxiliary facts *)

Lemma all_length {A} (t : gmap Z A) : length (all t) = size t.
Proof. unfold all. by rewrite length_fmap, length_map_to_list. Qed.

Lemma NoDup_all_ids {A} (t : gmap Z A) : NoDup (id <$> all t).
Proof. rewrite all_ids. apply NoDup_fst_map_to_list. Qed.

(** After an insertion under a fresh key, the listing holds the inserted row
    exactly once. *)
Lemma all_insert_row_once `{EqDecision A} (t : gmap Z A) k v :
  t !! k = None →
  length (filter (λ r, r = MkRow k v) (all (<[k := v]> t))) = 1%nat.
Proof.
  intros Hk. rewrite (all_insert t k v Hk).
  rewrite filter_cons_True by done.
  rewrite filter_none; [done|].
  intros r Hr%elem_of_all ->. simpl in Hr. congruence.
Qed.

(** The largest key is a key, and no key is larger. *)
Lemma foldr_max_elem (k : Z) (ks : list Z) : foldr Z.max k ks ∈ k :: ks.
Proof.
  induction ks as [|k' ks IH]; simpl; [left|].
  destruct (Z.max_spec k' (foldr Z.max k ks)) as [[_ ->]|[_ ->]].
  - apply elem_of_cons in IH as [->|IH]; [left|by do 2 right].
  - right. left.
Qed.

Lemma max_rowid_is_key {A} (t : gmap Z A) m :
  max_rowid t = Some m → is_Some (t !! m).
Proof.
  unfold max_rowid. intros Hm.
  destruct ((map_to_list t).*1) as [|k0 ks] eqn:Hkeys; [done|].
  injection Hm as <-.
  pose proof (foldr_max_elem k0 ks) as Hin. rewrite <- Hkeys in Hin.
  apply list_elem_of_fmap in Hin as [[k v] [Hk Hin]]. simpl in Hk.
  rewrite Hk. exists v. by apply elem_of_map_to_list.
Qed.

Lemma max_rowid_Some {A} (t : gmap Z A) m :
  max_rowid t = Some m
  ↔ is_Some (t !! m) ∧ ∀ k, is_Some (t !! k) → k ≤ m.
Proof.
  split.
  - intros Hm. split; [by apply max_rowid_is_key|].
    intros k Hk. by eapply max_rowid_ge.
  - intros [Hkey Hmax]. destruct (max_rowid t) as [m'|] eqn:Hm'.
    + f_equal. apply Z.le_antisymm.
      * apply Hmax. by apply max_rowid_is_key.
      * by eapply max_rowid_ge.
    + destruct Hkey as [v Hv]. unfold max_rowid in Hm'.
      apply elem_of_map_to_list in Hv.
      destruct (map_to_list t); [by apply not_elem_of_nil in Hv|done].
Qed.

(** Every key of a table is below the key of the next row. *)
Lemma next_rowid_gt {A} (t : gmap Z A) k :
  is_Some (t !! k) → k < next_rowid t.
Proof.
  intros Hk. unfold next_rowid. destruct (max_rowid t) as [m|] eqn:Hm.
  - assert (k ≤ m) by (by eapply max_rowid_ge). lia.
  - destruct Hk as [v Hv]. unfold max_rowid in Hm.
    apply elem_of_map_to_list in Hv.
    destruct (map_to_list t); [by apply not_elem_of_nil in Hv|done].
Qed.

(** Keys are handed out consecutively while nothing is deleted. *)
Lemma next_rowid_insert {A} (t : gmap Z A) v :
  next_rowid (<[next_rowid t := v]> t) = next_rowid t + 1.
Proof.
  set (i := next_rowid t).
  assert (Hmax : max_rowid (<[i := v]> t) = Some i).
  { apply max_rowid_Some. split.
    - rewrite lookup_insert_eq. by eexists.
    - intros k [Hk|Hk]%lookup_insert_is_Some'; [lia|].
      apply next_rowid_gt in Hk. fold i in Hk. lia. }
  unfold next_rowid at 1. by rewrite Hmax.
Qed.

(** In a table whose keys are at least 1 the next key is at least 1. *)
Lemma next_rowid_positive {A} (t : gmap Z A) :
  (∀ k, is_Some (t !! k) → 1 ≤ k) → 1 ≤ next_rowid t.
Proof.
  intros Hpos. unfold next_rowid. destruct (max_rowid t) as [m|] eqn:Hm; [|lia].
  apply max_rowid_is_key, Hpos in Hm. lia.
Qed.

(** A fresh athlete owns nothing: under referential integrity no achievement
    refers to a key that is absent from [athletes]. *)
Lemma filter_absent_owner db i :
  referential_integrity db → athletes db !! i = None →
  filter (λ kv, athlete_id kv.2 ≠ i) (achievements db) = achievements db.
Proof.
  intros Hdb Hi. apply map_filter_id. intros k a Hk. simpl. intros Heq.
  destruct (Hdb k a Hk) as [owner Howner]. congruence.
Qed.

(** ** Listing the athletes *)

(** X1. [GET /athletes] always answers 200 with exactly the rows of
    [athletes]: as many entries as the table has rows, no identifier twice,
    and an entry is listed if and only if the table holds it. *)
Theorem get_athletes_lists_table (db : Session) :
  ∃ l : list AthleteResponse,
    GET_athletes db = (MkResponse HTTP_200_OK (Some l), db) ∧
    length l = size (athletes db) ∧
    NoDup (id <$> l) ∧
    ∀ r, r ∈ l ↔ athletes db !! id r = Some (columns r).
Proof.
  exists (all (athletes db)). split_and!.
  - reflexivity.
  - apply all_length.
  - apply NoDup_all_ids.
  - intros r. apply elem_of_all.
Qed.

(** ** Failure is all-or-nothing *)

(** X2. A request that is answered with an error status (400 or above)
    leaves the database exactly as it found it, whichever of the seven
    operations it was: no handler commits anything before it raises. *)
Theorem failed_request_changes_nothing (r : Request) (db : Session) :
  400 ≤ (app r db).1 → (app r db).2 = db.
Proof.
  destruct r as [|body|i|i|filter_id|body|i]; unfold app, answer; simpl.
  - done.
  - rewrite POST_athletes_eq. destruct (AthleteCreate_valid body); simpl; [|done].
    unfold HTTP_201_CREATED. lia.
  - intros _. apply GET_athlete_achievements_db.
  - rewrite DELETE_athlete_eq. destruct (in_int64 i); [|done].
    destruct (athletes db !! i); simpl; [|done].
    unfold HTTP_204_NO_CONTENT. lia.
  - intros _. apply GET_achievements_db.
  - rewrite POST_achievements_eq.
    destruct (AchievementCreate_valid body); simpl; [|done].
    destruct (in_int64 (athlete_id body)); [|done].
    destruct (athletes db !! athlete_id body); simpl; [|done].
    unfold HTTP_201_CREATED. lia.
  - rewrite DELETE_achievement_eq. destruct (in_int64 i); [|done].
    destruct (achievements db !! i); simpl; [|done].
    unfold HTTP_204_NO_CONTENT. lia.
Qed.

Lemma failed_request_changes_nothing_witness :
  400 ≤ (app (CreateAchievement nameless_sport) db_example).1 ∧
  (app (CreateAchievement nameless_sport) db_example).2 = db_example.
Proof.
  assert (H : 400 ≤ (app (CreateAchievement nameless_sport) db_example).1)
    by (vm_compute; discriminate).
  split; [exact H|].
  exact (failed_request_changes_nothing (CreateAchievement nameless_sport) db_example H).
Defined.

(** X3. The status codes each operation can answer when the identifiers it
    is given are integers.  A request is answered 500 exactly when the
    identifier it looks up (the path identifier, the [athlete_id] filter, or
    the [athlete_id] of a body that passed validation) is outside the signed
    64-bit range.  Otherwise listing all athletes or achievements answers
    200; creating an athlete 201 or 422; listing an athlete's achievements
    200 or 404; a deletion 204 or 404; creating an achievement 201, 404 or
    422. *)
Theorem status_codes_by_operation (r : Request) (db : Session) :
  match r with
  | ListAthletes | ListAchievements None => (app r db).1 = 200
  | CreateAthlete _ => (app r db).1 = 201 ∨ (app r db).1 = 422
  | ListAchievements (Some i) =>
      if in_int64 i then (app r db).1 = 200 else (app r db).1 = 500
  | ListAthleteAchievements i =>
      if in_int64 i then (app r db).1 = 200 ∨ (app r db).1 = 404
      else (app r db).1 = 500
  | DeleteAthlete i | DeleteAchievement i =>
      if in_int64 i then (app r db).1 = 204 ∨ (app r db).1 = 404
      else (app r db).1 = 500
  | CreateAchievement body =>
      if AchievementCreate_valid body
      then if in_int64 (athlete_id body)
           then (app r db).1 = 201 ∨ (app r db).1 = 404
           else (app r db).1 = 500
      else (app r db).1 = 422
  end.
Proof.
  destruct r as [|body|i|i|filter_id|body|i]; unfold app, answer; simpl.
  - done.
  - rewrite POST_athletes_eq. destruct (AthleteCreate_valid body); auto.
  - rewrite GET_athlete_achievements_eq. destruct (in_int64 i); [|done].
    destruct (athletes db !! i); auto.
  - rewrite DELETE_athlete_eq. destruct (in_int64 i); [|done].
    destruct (athletes db !! i); auto.
  - rewrite GET_achievements_eq. destruct filter_id as [i|]; [|done].
    by destruct (in_int64 i).
  - rewrite POST_achievements_eq. destruct (AchievementCreate_valid body); [|done].
    destruct (in_int64 (athlete_id body)); [|done].
    destruct (athletes db !! athlete_id body); auto.
  - rewrite DELETE_achievement_eq. destruct (in_int64 i); [|done].
    destruct (achievements db !! i); auto.
Qed.

(** ** Creating and then deleting *)

(** X4. In a database with referential integrity, creating an athlete from a
    valid body and then deleting the athlete under the identifier that was
    returned (an identifier within the signed 64-bit range) answers 204 and
    gives back the database from before the creation: no achievement is lost
    to the cascade. *)
Theorem create_then_delete_athlete (db : Session) (body : AthleteBase) :
  referential_integrity db →
  AthleteCreate_valid body = true →
  ∃ new : AthleteResponse,
    (POST_athletes body db).1 = MkResponse HTTP_201_CREATED (Some new) ∧
    (in_int64 (id new) = true →
     DELETE_athlete (id new) (POST_athletes body db).2
     = (MkResponse HTTP_204_NO_CONTENT (Some tt), db)).
Proof.
  intros Hdb Hvalid. rewrite POST_athletes_eq, Hvalid. simpl.
  set (i := next_rowid (athletes db)).
  assert (Hfresh : athletes db !! i = None) by apply next_rowid_fresh.
  exists (MkRow i body). split; [done|]. simpl. intros Hi.
  rewrite DELETE_athlete_eq, Hi. simpl. rewrite lookup_insert_eq.
  rewrite delete_insert_id by done.
  rewrite filter_absent_owner by done. by destruct db.
Qed.

Lemma create_then_delete_athlete_witness :
  referential_integrity db_example ∧
  AthleteCreate_valid alice = true ∧
  ∃ new : AthleteResponse,
    (POST_athletes alice db_example).1 = MkResponse HTTP_201_CREATED (Some new) ∧
    in_int64 (id new) = true ∧
    DELETE_athlete (id new) (POST_athletes alice db_example).2
    = (MkResponse HTTP_204_NO_CONTENT (Some tt), db_example).
Proof.
  split; [exact referential_integrity_db_example|]. split; [reflexivity|].
  destruct (create_then_delete_athlete db_example alice
              referential_integrity_db_example eq_refl) as [new [Hnew Hdelete]].
  assert (Hid : in_int64 (id new) = true).
  { vm_compute in Hnew. injection Hnew as <-. reflexivity. }
  exists new. split; [exact Hnew|]. split; [exact Hid|]. exact (Hdelete Hid).
Defined.

(** X5. Creating an achievement from a valid body for an existing athlete
    (whose identifier is within the signed 64-bit range) and then deleting
    the achievement under the identifier that was returned (within that range
    too) answers 204 and gives back the database from before the creation. *)
Theorem create_then_delete_achievement (db : Session) (body : AchievementBase) :
  AchievementCreate_valid body = true →
  in_int64 (athlete_id body) = true →
  is_Some (athletes db !! athlete_id body) →
  ∃ new : AchievementResponse,
    (POST_achievements body db).1 = MkResponse HTTP_201_CREATED (Some new) ∧
    (in_int64 (id new) = true →
     DELETE_achievement (id new) (POST_achievements body db).2
     = (MkResponse HTTP_204_NO_CONTENT (Some tt), db)).
Proof.
  intros Hvalid Hrange [owner Howner].
  rewrite POST_achievements_eq, Hvalid, Hrange, Howner.
  simpl. set (i := next_rowid (achievements db)).
  assert (Hfresh : achievements db !! i = None) by apply next_rowid_fresh.
  exists (MkRow i body). split; [done|]. simpl. intros Hi.
  rewrite DELETE_achievement_eq, Hi. simpl. rewrite lookup_insert_eq.
  rewrite delete_insert_id by done. by destruct db.
Qed.

Lemma create_then_delete_achievement_witness :
  AchievementCreate_valid jump = true ∧
  in_int64 (athlete_id jump) = true ∧
  is_Some (athletes db_example !! athlete_id jump) ∧
  ∃ new : AchievementResponse,
    (POST_achievements jump db_example).1 = MkResponse HTTP_201_CREATED (Some new) ∧
    in_int64 (id new) = true ∧
    DELETE_achievement (id new) (POST_achievements jump db_example).2
    = (MkResponse HTTP_204_NO_CONTENT (Some tt), db_example).
Proof.
  assert (Howner : is_Some (athletes db_example !! athlete_id jump))
    by (by exists bob).
  split; [reflexivity|]. split; [reflexivity|]. split; [exact Howner|].
  destruct (create_then_delete_achievement db_example jump eq_refl eq_refl Howner)
    as [new [Hnew Hdelete]].
  assert (Hid : in_int64 (id new) = true).
  { vm_compute in Hnew. injection Hnew as <-. reflexivity. }
  exists new. split; [exact Hnew|]. split; [exact Hid|]. exact (Hdelete Hid).
Defined.

(** ** Creating an achievement and listing *)

(** X6. After creating an achievement from a valid body for an existing
    athlete (whose identifier is within the signed 64-bit range), the created
    achievement appears exactly once in the unfiltered listing, exactly once
    in the listing filtered by its [athlete_id], and the athlete's own
    listing is that same filtered list. *)
Theorem create_achievement_then_list (db : Session) (body : AchievementBase) :
  AchievementCreate_valid body = true →
  in_int64 (athlete_id body) = true →
  is_Some (athletes db !! athlete_id body) →
  ∃ (new : AchievementResponse) (every owned : list AchievementResponse),
    (POST_achievements body db).1 = MkResponse HTTP_201_CREATED (Some new) ∧
    columns new = body ∧
    (GET_achievements None (POST_achievements body db).2).1
    = MkResponse HTTP_200_OK (Some every) ∧
    length (filter (λ r, r = new) every) = 1%nat ∧
    (GET_achievements (Some (athlete_id body)) (POST_achievements body db).2).1
    = MkResponse HTTP_200_OK (Some owned) ∧
    (GET_athlete_achievements (athlete_id body) (POST_achievements body db).2).1
    = MkResponse HTTP_200_OK (Some owned) ∧
    length (filter (λ r, r = new) owned) = 1%nat.
Proof.
  intros Hvalid Hrange [owner Howner].
  rewrite POST_achievements_eq, Hvalid, Hrange, Howner.
  simpl. set (i := next_rowid (achievements db)).
  assert (Hfresh : achievements db !! i = None) by apply next_rowid_fresh.
  rewrite !GET_achievements_eq, GET_athlete_achievements_eq, Hrange. simpl.
  rewrite Howner.
  eexists (MkRow i body), _, _. split_and!; try reflexivity.
  - by apply all_insert_row_once.
  - rewrite map_filter_insert_True by done.
    apply all_insert_row_once. by apply map_lookup_filter_None_2; left.
Qed.

Lemma create_achievement_then_list_witness :
  AchievementCreate_valid sprint = true ∧
  in_int64 (athlete_id sprint) = true ∧
  is_Some (athletes db_example !! athlete_id sprint) ∧
  ∃ (new : AchievementResponse) (every owned : list AchievementResponse),
    (POST_achievements sprint db_example).1
    = MkResponse HTTP_201_CREATED (Some new) ∧
    columns new = sprint ∧
    (GET_achievements None (POST_achievements sprint db_example).2).1
    = MkResponse HTTP_200_OK (Some every) ∧
    length (filter (λ r, r = new) every) = 1%nat ∧
    (GET_achievements (Some (athlete_id sprint)) (POST_achievements sprint db_example).2).1
    = MkResponse HTTP_200_OK (Some owned) ∧
    (GET_athlete_achievements (athlete_id sprint) (POST_achievements sprint db_example).2).1
    = MkResponse HTTP_200_OK (Some owned) ∧
    length (filter (λ r, r = new) owned) = 1%nat.
Proof.
  assert (Howner : is_Some (athletes db_example !! athlete_id sprint))
    by (by exists alice).
  split; [reflexivity|]. split; [reflexivity|]. split; [exact Howner|].
  exact (create_achievement_then_list db_example sprint eq_refl eq_refl Howner).
Defined.

(** ** After a deletion *)

(** X7. Once an athlete has been deleted, the identifier (within the signed
    64-bit range) is gone for every operation: deleting it again answers
    404, listing the athlete's achievements answers 404, and the listing
    filtered by that identifier answers 200 with the empty list; none of
    them changes the database. *)
Theorem delete_athlete_then_gone (db : Session) (i : Z) :
  in_int64 i = true →
  is_Some (athletes db !! i) →
  DELETE_athlete i (DELETE_athlete i db).2
  = (MkResponse HTTP_404_NOT_FOUND None, (DELETE_athlete i db).2) ∧
  GET_athlete_achievements i (DELETE_athlete i db).2
  = (MkResponse HTTP_404_NOT_FOUND None, (DELETE_athlete i db).2) ∧
  GET_achievements (Some i) (DELETE_athlete i db).2
  = (MkResponse HTTP_200_OK (Some []), (DELETE_athlete i db).2).
Proof.
  intros Hi [a Ha]. rewrite (DELETE_athlete_eq i db), Hi, Ha. simpl. split_and!.
  - rewrite DELETE_athlete_eq, Hi. simpl. by rewrite lookup_delete_eq.
  - rewrite GET_athlete_achievements_eq, Hi. simpl. by rewrite lookup_delete_eq.
  - rewrite GET_achievements_eq, Hi. simpl.
    replace (filter (λ kv, athlete_id kv.2 = i)
               (filter (λ kv, athlete_id kv.2 ≠ i) (achievements db)))
      with (∅ : gmap Z AchievementBase);
      [by unfold all; rewrite map_to_list_empty|].
    symmetry. apply map_empty_filter. intros k b.
    rewrite map_lookup_filter_Some. simpl. by intros [_ Hne].
Qed.

Lemma delete_athlete_then_gone_witness :
  in_int64 1 = true ∧
  is_Some (athletes db_example !! 1) ∧
  DELETE_athlete 1 (DELETE_athlete 1 db_example).2
  = (MkResponse HTTP_404_NOT_FOUND None, (DELETE_athlete 1 db_example).2) ∧
  GET_athlete_achievements 1 (DELETE_athlete 1 db_example).2
  = (MkResponse HTTP_404_NOT_FOUND None, (DELETE_athlete 1 db_example).2) ∧
  GET_achievements (Some 1) (DELETE_athlete 1 db_example).2
  = (MkResponse HTTP_200_OK (Some []), (DELETE_athlete 1 db_example).2).
Proof.
  assert (H : is_Some (athletes db_example !! 1)) by (by exists alice).
  split; [reflexivity|]. split; [exact H|].
  exact (delete_athlete_then_gone db_example 1 eq_refl H).
Defined.

(** X8. Once an achievement has been deleted, deleting its identifier
    (within the signed 64-bit range) again answers 404 and no listing of
    achievements, filtered or not, shows a row with that identifier. *)
Theorem delete_achievement_then_gone (db : Session) (i : Z) :
  in_int64 i = true →
  is_Some (achievements db !! i) →
  DELETE_achievement i (DELETE_achievement i db).2
  = (MkResponse HTTP_404_NOT_FOUND None, (DELETE_achievement i db).2) ∧
  ∀ filter_id l,
    (GET_achievements filter_id (DELETE_achievement i db).2).1
    = MkResponse HTTP_200_OK (Some l) →
    ∀ r, r ∈ l → id r ≠ i.
Proof.
  intros Hi [a Ha]. rewrite (DELETE_achievement_eq i db), Hi, Ha. simpl. split.
  - rewrite DELETE_achievement_eq, Hi. simpl. by rewrite lookup_delete_eq.
  - intros filter_id l Hl r Hr Heq.
    rewrite GET_achievements_eq in Hl. simpl in Hl.
    destruct filter_id as [j|].
    + destruct (in_int64 j); [|done]. injection Hl as <-.
      apply elem_of_all, map_lookup_filter_Some in Hr as [Hr _].
      by rewrite Heq, lookup_delete_eq in Hr.
    + injection Hl as <-.
      apply elem_of_all in Hr. by rewrite Heq, lookup_delete_eq in Hr.
Qed.

Lemma delete_achievement_then_gone_witness :
  in_int64 2 = true ∧
  is_Some (achievements db_example !! 2) ∧
  DELETE_achievement 2 (DELETE_achievement 2 db_example).2
  = (MkResponse HTTP_404_NOT_FOUND None, (DELETE_achievement 2 db_example).2) ∧
  ∀ filter_id l,
    (GET_achievements filter_id (DELETE_achievement 2 db_example).2).1
    = MkResponse HTTP_200_OK (Some l) →
    ∀ r, r ∈ l → id r ≠ 2.
Proof.
  assert (H : is_Some (achievements db_example !! 2)) by (by exists jump).
  split; [reflexivity|]. split; [exact H|].
  exact (delete_achievement_then_gone db_example 2 eq_refl H).
Defined.

(** X9. Deleting one athlete does not disturb another: for a different
    identifier, listing that athlete's achievements answers after the
    deletion exactly what it answered before. *)
Theorem delete_athlete_keeps_others (db : Session) (i j : Z) :
  i ≠ j →
  (GET_athlete_achievements j (DELETE_athlete i db).2).1
  = (GET_athlete_achievements j db).1.
Proof.
  intros Hij. rewrite DELETE_athlete_eq.
  destruct (in_int64 i); [|done].
  destruct (athletes db !! i) as [a|]; [|done]. simpl.
  rewrite !GET_athlete_achievements_eq. simpl.
  destruct (in_int64 j); [|done].
  rewrite lookup_delete_ne by done.
  destruct (athletes db !! j); [|done]. simpl. do 3 f_equal.
  apply map_filter_filter_l. simpl. intros k b _ Hb. congruence.
Qed.

Lemma delete_athlete_keeps_others_witness :
  1 ≠ 2 ∧
  (GET_athlete_achievements 2 (DELETE_athlete 1 db_example).2).1
  = (GET_athlete_achievements 2 db_example).1.
Proof.
  assert (H : 1 ≠ 2) by discriminate.
  split; [exact H|]. exact (delete_athlete_keeps_others db_example 1 2 H).
Defined.

(** X10. The cascade removes as many achievements as the athlete owned and
    exactly one athlete: for an existing athlete with an identifier within
    the signed 64-bit range, the achievements listed before the deletion are
    as many as the athlete's own plus those listed after it, and the
    athletes listed before are one more than those listed after. *)
Theorem delete_athlete_counts (db : Session) (i : Z) :
  in_int64 i = true →
  is_Some (athletes db !! i) →
  ∃ (before owned after : list AchievementResponse)
    (athletes_before athletes_after : list AthleteResponse),
    (GET_achievements None db).1 = MkResponse HTTP_200_OK (Some before) ∧
    (GET_athlete_achievements i db).1 = MkResponse HTTP_200_OK (Some owned) ∧
    (GET_achievements None (DELETE_athlete i db).2).1
    = MkResponse HTTP_200_OK (Some after) ∧
    (GET_athletes db).1 = MkResponse HTTP_200_OK (Some athletes_before) ∧
    (GET_athletes (DELETE_athlete i db).2).1
    = MkResponse HTTP_200_OK (Some athletes_after) ∧
    length before = (length owned + length after)%nat ∧
    length athletes_before = S (length athletes_after).
Proof.
  intros Hi [a Ha].
  rewrite GET_athlete_achievements_eq, DELETE_athlete_eq, Hi, Ha. simpl.
  eexists _, _, _, _, _. split_and!; try reflexivity.
  - rewrite !all_length.
    rewrite <- (map_filter_union_complement
                  (λ kv, athlete_id kv.2 = i) (achievements db)) at 1.
    apply map_size_disj_union, map_disjoint_filter_complement.
  - rewrite !all_length, map_size_delete, Ha. simpl.
    assert (size (athletes db) ≠ 0%nat); [|lia].
    intros Hsize%map_size_empty_inv. by rewrite Hsize in Ha.
Qed.

Lemma delete_athlete_counts_witness :
  in_int64 2 = true ∧
  is_Some (athletes db_example !! 2) ∧
  ∃ (before owned after : list AchievementResponse)
    (athletes_before athletes_after : list AthleteResponse),
    (GET_achievements None db_example).1 = MkResponse HTTP_200_OK (Some before) ∧
    (GET_athlete_achievements 2 db_example).1 = MkResponse HTTP_200_OK (Some owned) ∧
    (GET_achievements None (DELETE_athlete 2 db_example).2).1
    = MkResponse HTTP_200_OK (Some after) ∧
    (GET_athletes db_example).1 = MkResponse HTTP_200_OK (Some athletes_before) ∧
    (GET_athletes (DELETE_athlete 2 db_example).2).1
    = MkResponse HTTP_200_OK (Some athletes_after) ∧
    length before = (length owned + length after)%nat ∧
    length athletes_before = S (length athletes_after).
Proof.
  assert (H : is_Some (athletes db_example !! 2)) by (by exists bob).
  split; [reflexivity|]. split; [exact H|].
  exact (delete_athlete_counts db_example 2 eq_refl H).
Defined.

(** ** Identifiers *)

(** X11. The identifier given to a created row is larger than every
    identifier present in its table, for athletes and for achievements (an
    achievement being created for an existing athlete whose identifier is
    within the signed 64-bit range). *)
Theorem new_id_exceeds_existing (db : Session) :
  (∀ body : AthleteBase,
     AthleteCreate_valid body = true →
     ∃ new : AthleteResponse,
       (POST_athletes body db).1 = MkResponse HTTP_201_CREATED (Some new) ∧
       ∀ k, is_Some (athletes db !! k) → k < id new) ∧
  (∀ body : AchievementBase,
     AchievementCreate_valid body = true →
     in_int64 (athlete_id body) = true →
     is_Some (athletes db !! athlete_id body) →
     ∃ new : AchievementResponse,
       (POST_achievements body db).1 = MkResponse HTTP_201_CREATED (Some new) ∧
       ∀ k, is_Some (achievements db !! k) → k < id new).
Proof.
  split.
  - intros body Hvalid. rewrite POST_athletes_eq, Hvalid. simpl.
    eexists. split; [reflexivity|]. simpl. apply next_rowid_gt.
  - intros body Hvalid Hrange [owner Howner].
    rewrite POST_achievements_eq, Hvalid, Hrange, Howner. simpl.
    eexists. split; [reflexivity|]. simpl. apply next_rowid_gt.
Qed.

Lemma new_id_exceeds_existing_witness :
  AthleteCreate_valid bob = true ∧
  ∃ new : AthleteResponse,
    (POST_athletes bob db_example).1 = MkResponse HTTP_201_CREATED (Some new) ∧
    ∀ k, is_Some (athletes db_example !! k) → k < id new.
Proof.
  split; [reflexivity|].
  exact (proj1 (new_id_exceeds_existing db_example) bob eq_refl).
Defined.

(** X12. In every database the service can reach, every identifier of an
    athlete and of an achievement is at least 1. *)
Theorem reachable_ids_positive (db : Session) :
  reachable db →
  (∀ k, is_Some (athletes db !! k) → 1 ≤ k) ∧
  (∀ k, is_Some (achievements db !! k) → 1 ≤ k).
Proof.
  induction 1 as [|r db _ [IHa IHb]].
  - split; intros k [v Hv]; simpl in Hv; by rewrite lookup_empty in Hv.
  - destruct r as [|body|i|i|filter_id|body|i]; unfold app, answer; simpl.
    + done.
    + rewrite POST_athletes_eq. destruct (AthleteCreate_valid body); [|done].
      simpl. split; [|done].
      intros k [<-|Hk]%lookup_insert_is_Some'; [|by apply IHa].
      by apply next_rowid_positive.
    + by rewrite GET_athlete_achievements_db.
    + rewrite DELETE_athlete_eq. destruct (in_int64 i); [|done].
      destruct (athletes db !! i); [|done].
      simpl. split.
      * intros k [_ Hk]%lookup_delete_is_Some. by apply IHa.
      * intros k [v [Hv _]%map_lookup_filter_Some]. apply IHb. by exists v.
    + by rewrite GET_achievements_db.
    + rewrite POST_achievements_eq.
      destruct (AchievementCreate_valid body); [|done].
      destruct (in_int64 (athlete_id body)); [|done].
      destruct (athletes db !! athlete_id body); [|done].
      simpl. split; [done|].
      intros k [<-|Hk]%lookup_insert_is_Some'; [|by apply IHb].
      by apply next_rowid_positive.
    + rewrite DELETE_achievement_eq. destruct (in_int64 i); [|done].
      destruct (achievements db !! i); [|done].
      simpl. split; [done|].
      intros k [_ Hk]%lookup_delete_is_Some. by apply IHb.
Qed.

Lemma reachable_ids_positive_witness :
  reachable db_alice ∧
  (∀ k, is_Some (athletes db_alice !! k) → 1 ≤ k) ∧
  (∀ k, is_Some (achievements db_alice !! k) → 1 ≤ k).
Proof.
  split; [exact reachable_db_alice|].
  exact (reachable_ids_positive db_alice reachable_db_alice).
Defined.

(** X13. Nothing makes an athlete unique but the identifier: creating an
    athlete twice from the same valid body succeeds both times, the second
    identifier is the first plus one, and both rows are listed. *)
Theorem create_athlete_twice (db : Session) (body : AthleteBase) :
  AthleteCreate_valid body = true →
  ∃ (first second : AthleteResponse) (l : list AthleteResponse),
    (POST_athletes body db).1 = MkResponse HTTP_201_CREATED (Some first) ∧
    (POST_athletes body (POST_athletes body db).2).1
    = MkResponse HTTP_201_CREATED (Some second) ∧
    columns first = body ∧ columns second = body ∧
    id second = id first + 1 ∧
    (GET_athletes (POST_athletes body (POST_athletes body db).2).2).1
    = MkResponse HTTP_200_OK (Some l) ∧
    first ∈ l ∧ second ∈ l.
Proof.
  intros Hvalid. rewrite !POST_athletes_eq, Hvalid. simpl.
  pose proof (next_rowid_insert (athletes db) body) as Hnext.
  eexists _, _, _. split_and!; try reflexivity.
  - done.
  - apply elem_of_all. simpl. rewrite Hnext.
    rewrite lookup_insert_ne by lia. apply lookup_insert_eq.
  - apply elem_of_all. simpl. apply lookup_insert_eq.
Qed.

Lemma create_athlete_twice_witness :
  AthleteCreate_valid alice = true ∧
  ∃ (first second : AthleteResponse) (l : list AthleteResponse),
    (POST_athletes alice db_example).1 = MkResponse HTTP_201_CREATED (Some first) ∧
    (POST_athletes alice (POST_athletes alice db_example).2).1
    = MkResponse HTTP_201_CREATED (Some second) ∧
    columns first = alice ∧ columns second = alice ∧
    id second = id first + 1 ∧
    (GET_athletes (POST_athletes alice (POST_athletes alice db_example).2).2).1
    = MkResponse HTTP_200_OK (Some l) ∧
    first ∈ l ∧ second ∈ l.
Proof.
  split; [reflexivity|]. exact (create_athlete_twice db_example alice eq_refl).
Defined.

(** X14. Identifiers are not retired: when the athlete created last is
    deleted (under its identifier, within the signed 64-bit range), the next
    athlete created receives the same identifier. *)
Theorem deleted_athlete_id_is_reused (db : Session) (body body' : AthleteBase) :
  AthleteCreate_valid body = true →
  AthleteCreate_valid body' = true →
  ∃ new : AthleteResponse,
    (POST_athletes body db).1 = MkResponse HTTP_201_CREATED (Some new) ∧
    (in_int64 (id new) = true →
     (POST_athletes body' (DELETE_athlete (id new) (POST_athletes body db).2).2).1
     = MkResponse HTTP_201_CREATED (Some (MkRow (id new) body'))).
Proof.
  intros Hvalid Hvalid'. rewrite (POST_athletes_eq body db), Hvalid. simpl.
  set (i := next_rowid (athletes db)).
  assert (Hfresh : athletes db !! i = None) by apply next_rowid_fresh.
  eexists. split; [reflexivity|]. simpl. intros Hi.
  rewrite DELETE_athlete_eq, Hi. simpl. rewrite lookup_insert_eq. simpl.
  rewrite POST_athletes_eq, Hvalid'. simpl.
  by rewrite delete_insert_id.
Qed.

Lemma deleted_athlete_id_is_reused_witness :
  AthleteCreate_valid alice = true ∧
  AthleteCreate_valid bob = true ∧
  ∃ new : AthleteResponse,
    (POST_athletes alice db_example).1 = MkResponse HTTP_201_CREATED (Some new) ∧
    in_int64 (id new) = true ∧
    (POST_athletes bob (DELETE_athlete (id new) (POST_athletes alice db_example).2).2).1
    = MkResponse HTTP_201_CREATED (Some (MkRow (id new) bob)).
Proof.
  split; [reflexivity|]. split; [reflexivity|].
  destruct (deleted_athlete_id_is_reused db_example alice bob eq_refl eq_refl)
    as [new [Hnew Hreuse]].
  assert (Hid : in_int64 (id new) = true).
  { vm_compute in Hnew. injection Hnew as <-. reflexivity. }
  exists new. split; [exact Hnew|]. split; [exact Hid|]. exact (Hreuse Hid).
Defined.

(** ** Owners *)

(** X15. In a database with referential integrity, every achievement of the
    unfiltered listing is found again under its athlete (the athlete's
    identifier being within the signed 64-bit range): listing the
    achievements of the athlete it names answers 200 and contains it. *)
Theorem listed_achievement_has_owner
    (db : Session) (l : list AchievementResponse) (r : AchievementResponse) :
  referential_integrity db →
  (GET_achievements None db).1 = MkResponse HTTP_200_OK (Some l) →
  r ∈ l →
  in_int64 (athlete_id (columns r)) = true →
  ∃ owned : list AchievementResponse,
    GET_athlete_achievements (athlete_id (columns r)) db
    = (MkResponse HTTP_200_OK (Some owned), db) ∧
    r ∈ owned.
Proof.
  intros Hdb [= <-] Hr%elem_of_all Hrange.
  destruct (Hdb _ _ Hr) as [owner Howner].
  rewrite GET_athlete_achievements_eq, Hrange, Howner.
  eexists. split; [reflexivity|].
  apply elem_of_all. by apply map_lookup_filter_Some.
Qed.

Lemma listed_achievement_has_owner_witness :
  referential_integrity db_example ∧
  (GET_achievements None db_example).1
  = MkResponse HTTP_200_OK (Some (all (achievements db_example))) ∧
  MkRow 2 jump ∈ all (achievements db_example) ∧
  in_int64 (athlete_id (columns (MkRow 2 jump))) = true ∧
  ∃ owned : list AchievementResponse,
    GET_athlete_achievements (athlete_id (columns (MkRow 2 jump))) db_example
    = (MkResponse HTTP_200_OK (Some owned), db_example) ∧
    MkRow 2 jump ∈ owned.
Proof.
  assert (Hin : MkRow 2 jump ∈ all (achievements db_example))
    by (by apply elem_of_all).
  split; [exact referential_integrity_db_example|].
  split; [reflexivity|]. split; [exact Hin|]. split; [reflexivity|].
  exact (listed_achievement_has_owner db_example _ (MkRow 2 jump)
           referential_integrity_db_example eq_refl Hin eq_refl).
Defined.

(** ** Order of deletions *)

(** X16. Two deletions of athletes can be made in either order: the
    database left behind is the same. *)
Theorem delete_athlete_commute (db : Session) (i j : Z) :
  (DELETE_athlete i (DELETE_athlete j db).2).2
  = (DELETE_athlete j (DELETE_athlete i db).2).2.
Proof.
  destruct (decide (i = j)) as [->|Hij]; [done|].
  rewrite (DELETE_athlete_eq j db), (DELETE_athlete_eq i db).
  destruct (in_int64 i) eqn:Hri; destruct (in_int64 j) eqn:Hrj;
    destruct (athletes db !! i) as [a|] eqn:Hi;
    destruct (athletes db !! j) as [b|] eqn:Hj; simpl;
    rewrite !DELETE_athlete_eq; simpl;
    rewrite ?Hri, ?Hrj, ?lookup_delete_ne by done; rewrite ?Hi, ?Hj; simpl;
    try done.
  f_equal; [apply delete_delete|].
  apply (map_filter_comm (λ kv, athlete_id kv.2 ≠ i) (λ kv, athlete_id kv.2 ≠ j)).
Qed.

(** ** Achievements and the life of their athlete *)

(** X17. No achievement can be created for an athlete that has been
    deleted: after a successful deletion (of an identifier within the signed
    64-bit range), a valid body that names the deleted athlete is answered
    404 and the database stays as the deletion left it. *)
Theorem create_achievement_for_deleted_athlete
    (db : Session) (body : AchievementBase) :
  AchievementCreate_valid body = true →
  in_int64 (athlete_id body) = true →
  is_Some (athletes db !! athlete_id body) →
  (DELETE_athlete (athlete_id body) db).1
  = MkResponse HTTP_204_NO_CONTENT (Some tt) ∧
  POST_achievements body (DELETE_athlete (athlete_id body) db).2
  = (MkResponse HTTP_404_NOT_FOUND None, (DELETE_athlete (athlete_id body) db).2).
Proof.
  intros Hvalid Hrange [owner Howner].
  rewrite DELETE_athlete_eq, Hrange, Howner. simpl.
  split; [done|].
  rewrite POST_achievements_eq, Hvalid, Hrange. simpl.
  by rewrite lookup_delete_eq.
Qed.

Lemma create_achievement_for_deleted_athlete_witness :
  AchievementCreate_valid sprint = true ∧
  in_int64 (athlete_id sprint) = true ∧
  is_Some (athletes db_example !! athlete_id sprint) ∧
  (DELETE_athlete (athlete_id sprint) db_example).1
  = MkResponse HTTP_204_NO_CONTENT (Some tt) ∧
  POST_achievements sprint (DELETE_athlete (athlete_id sprint) db_example).2
  = (MkResponse HTTP_404_NOT_FOUND None,
     (DELETE_athlete (athlete_id sprint) db_example).2).
Proof.
  assert (Howner : is_Some (athletes db_example !! athlete_id sprint))
    by (by exists alice).
  split; [reflexivity|]. split; [reflexivity|]. split; [exact Howner|].
  exact (create_achievement_for_deleted_athlete db_example sprint
           eq_refl eq_refl Howner).
Defined.

(** X18. In a database with referential integrity, an athlete that has just
    been created owns nothing: listing the achievements of the returned
    identifier (within the signed 64-bit range) answers 200 with the empty
    list. *)
Theorem new_athlete_has_no_achievements (db : Session) (body : AthleteBase) :
  referential_integrity db →
  AthleteCreate_valid body = true →
  ∃ new : AthleteResponse,
    (POST_athletes body db).1 = MkResponse HTTP_201_CREATED (Some new) ∧
    (in_int64 (id new) = true →
     (GET_athlete_achievements (id new) (POST_athletes body db).2).1
     = MkResponse HTTP_200_OK (Some [])).
Proof.
  intros Hdb Hvalid. rewrite POST_athletes_eq, Hvalid. simpl.
  set (i := next_rowid (athletes db)).
  assert (Hfresh : athletes db !! i = None) by apply next_rowid_fresh.
  eexists. split; [reflexivity|]. simpl. intros Hi.
  rewrite GET_athlete_achievements_eq, Hi. simpl. rewrite lookup_insert_eq. simpl.
  replace (filter (λ kv, athlete_id kv.2 = i) (achievements db))
    with (∅ : gmap Z AchievementBase);
    [by unfold all; rewrite map_to_list_empty|].
  symmetry. apply map_empty_filter. intros k a Hk. simpl. intros Heq.
  destruct (Hdb k a Hk) as [owner Howner]. congruence.
Qed.

Lemma new_athlete_has_no_achievements_witness :
  referential_integrity db_example ∧
  AthleteCreate_valid bob = true ∧
  ∃ new : AthleteResponse,
    (POST_athletes bob db_example).1 = MkResponse HTTP_201_CREATED (Some new) ∧
    in_int64 (id new) = true ∧
    (GET_athlete_achievements (id new) (POST_athletes bob db_example).2).1
    = MkResponse HTTP_200_OK (Some []).
Proof.
  split; [exact referential_integrity_db_example|]. split; [reflexivity|].
  destruct (new_athlete_has_no_achievements db_example bob
              referential_integrity_db_example eq_refl) as [new [Hnew Hempty]].
  assert (Hid : in_int64 (id new) = true).
  { vm_compute in Hnew. injection Hnew as <-. reflexivity. }
  exists new. split; [exact Hnew|]. split; [exact Hid|]. exact (Hempty Hid).
Defined.
